(** * Loan eligibility webhook (main.py): a shallow embedding and its properties

    The webhook receives one Dialogflow request, merges the parameters of the
    current turn with those remembered in the [awaiting-loan-details] contexts,
    derives the loan type, unwraps age, income and qualification, and answers
    with one fixed sentence.

    Modelling choices:
    - a JSON value as Python sees it after parsing is a [value]: [None], a
      bool, an int, a str, a list or a dict.  JSON numbers are integers ([Z]);
      a fractional number would be a Python float, whose truncation and
      printing are floating point behaviour and are left out of the value
      type;
    - text is a [string] of bytes.  Case folding, blanks and digits are the
      ASCII ones, and [repr] escapes the ASCII control characters only.  No
      code point outside ASCII lower-cases to a letter of [graduate], so the
      substring test of the education branch is the one of the source; [int]
      of text written with non-ASCII digits or blanks is outside the model,
      and so is the interpreter's limit on the number of digits;
    - [merged_params], [params] and the [parameters] of a request are
      [gmap string value]: only lookups and [update] are applied to them.  A
      dict nested inside a value keeps its insertion order (an association
      list) because [str] may print it;
    - an exception is a result [Raise e]: [int] is the only operation of the
      handler that can raise.  The [print] calls and the timer do not take
      part in the returned body and are not modelled. *)

From Stdlib Require Import ZArith Ascii String List Bool Lia.
From stdpp Require Import base option gmap strings list fin_maps pretty.

Set Warnings "-register-all".

Local Open Scope string_scope.
Local Open Scope Z_scope.

(** ** Python values *)

Inductive value : Type :=
  | VNone
  | VBool (b : bool)
  | VInt (n : Z)
  | VStr (s : string)
  | VList (l : list value)
  | VDict (d : list (string * value)).

Inductive exn : Type :=
  | TypeError
  | ValueError.

Inductive result (A : Type) : Type :=
  | Ok (a : A)
  | Raise (e : exn).

Arguments Ok {A} a.
Arguments Raise {A} e.

Definition bind {A B : Type} (r : result A) (k : A -> result B) : result B :=
  match r with
  | Ok a => k a
  | Raise e => Raise e
  end.

Notation "'let*' x := r 'in' k" := (bind r (fun x => k))
  (at level 10, x name, r at level 100, k at level 200).

Module Py.

(** [x is None] *)
Definition is_none (v : value) : bool :=
  match v with
  | VNone => true
  | _ => false
  end.

(** The truth value of an object, as [if x:] and [x and y] test it. *)
Definition truthy (v : value) : bool :=
  match v with
  | VNone => false
  | VBool b => b
  | VInt n => negb (n =? 0)
  | VStr s => negb (String.eqb s "")
  | VList l => match l with [] => false | _ :: _ => true end
  | VDict d => match d with [] => false | _ :: _ => true end
  end.

(** [x == s] for a str literal [s]: only a str equals a str. *)
Definition eq_str (v : value) (s : string) : bool :=
  match v with
  | VStr t => String.eqb t s
  | _ => false
  end.

Definition isinstance_dict (v : value) : bool :=
  match v with VDict _ => true | _ => false end.

Definition isinstance_list (v : value) : bool :=
  match v with VList _ => true | _ => false end.

(** [d.get(k)] and [k in d] on a dict held inside a value. *)
Fixpoint assoc (k : string) (d : list (string * value)) : option value :=
  match d with
  | [] => None
  | (k', v) :: d' => if String.eqb k' k then Some v else assoc k d'
  end.

Definition contains_key (k : string) (v : value) : bool :=
  match v with
  | VDict d => match assoc k d with Some _ => true | None => false end
  | _ => false
  end.

(** [v[k]] once [k in v] holds. *)
Definition getitem_key (v : value) (k : string) : value :=
  match v with
  | VDict d => default VNone (assoc k d)
  | _ => VNone
  end.

(** [v[0]] once [v] is a non-empty list. *)
Definition getitem_0 (v : value) : value :=
  match v with
  | VList (x :: _) => x
  | _ => VNone
  end.

(** [params.get(k)]: the value, or [None] when the key is absent. *)
Definition get (params : gmap string value) (k : string) : value :=
  default VNone (params !! k).

(** *** Text *)

Definition lower_ascii (c : ascii) : ascii :=
  let n := nat_of_ascii c in
  if ((65 <=? n) && (n <=? 90))%nat then ascii_of_nat (n + 32) else c.

(** [s.lower()] *)
Fixpoint lower (s : string) : string :=
  match s with
  | EmptyString => EmptyString
  | String c r => String (lower_ascii c) (lower r)
  end.

(** [needle in hay] on two strs. *)
Fixpoint str_in (needle hay : string) : bool :=
  String.prefix needle hay ||
  match hay with
  | EmptyString => false
  | String _ r => str_in needle r
  end.

Fixpoint has_char (c : ascii) (s : string) : bool :=
  match s with
  | EmptyString => false
  | String c' r => Ascii.eqb c' c || has_char c r
  end.

Definition hex_digit (n : nat) : ascii :=
  if (n <? 10)%nat then ascii_of_nat (48 + n) else ascii_of_nat (87 + n).

Definition double_quote : ascii := ascii_of_nat 34.

(** One character of [repr(s)], for the quote [q] chosen for [s]. *)
Definition repr_char (q c : ascii) : string :=
  let n := nat_of_ascii c in
  if Ascii.eqb c q || Ascii.eqb c "\" then String "\" (String c EmptyString)
  else if (n =? 9)%nat then "\t"
  else if (n =? 10)%nat then "\n"
  else if (n =? 13)%nat then "\r"
  else if ((n <? 32) || (n =? 127))%nat
    then String "\" (String "x" (String (hex_digit (n / 16))
                                    (String (hex_digit (n mod 16)) EmptyString)))
  else String c EmptyString.

Fixpoint repr_chars (q : ascii) (s : string) : string :=
  match s with
  | EmptyString => EmptyString
  | String c r => repr_char q c +:+ repr_chars q r
  end.

(** [repr(s)] of a str: single quotes, unless the text has a single quote
    and no double quote. *)
Definition repr_str (s : string) : string :=
  let q : ascii := if has_char "'" s && negb (has_char double_quote s)
                   then double_quote else "'"%char in
  String q (repr_chars q s) +:+ String q EmptyString.

Fixpoint join (sep : string) (l : list string) : string :=
  match l with
  | [] => EmptyString
  | [x] => x
  | x :: r => x +:+ sep +:+ join sep r
  end.

(** [repr(v)] *)
Fixpoint repr (v : value) : string :=
  match v with
  | VNone => "None"
  | VBool true => "True"
  | VBool false => "False"
  | VInt n => pretty n
  | VStr s => repr_str s
  | VList l => "[" +:+ join ", " (List.map repr l) +:+ "]"
  | VDict d =>
      "{" +:+ join ", " (List.map (fun kv => match kv with
                                             | (k, x) => repr_str k +:+ ": " +:+ repr x
                                             end) d) +:+ "}"
  end.

(** [str(v)] *)
Definition str (v : value) : string :=
  match v with
  | VStr s => s
  | _ => repr v
  end.

(** *** [int(v)] *)

Definition is_space (c : ascii) : bool :=
  let n := nat_of_ascii c in
  (((9 <=? n) && (n <=? 13)) || ((28 <=? n) && (n <=? 32)))%nat.

Fixpoint lstrip (s : string) : string :=
  match s with
  | EmptyString => EmptyString
  | String c r => if is_space c then lstrip r else s
  end.

(** [s.strip()], as [int] applies it to its argument. *)
Definition strip (s : string) : string :=
  String.rev (lstrip (String.rev (lstrip s))).

Definition digit_of (c : ascii) : option Z :=
  let n := nat_of_ascii c in
  if ((48 <=? n) && (n <=? 57))%nat then Some (Z.of_nat (n - 48)) else None.

(** Decimal digits, with single underscores allowed between two digits.
    [prev] tells whether the previous character was a digit. *)
Fixpoint digits (acc : Z) (prev : bool) (s : string) : option Z :=
  match s with
  | EmptyString => if prev then Some acc else None
  | String c r =>
      match digit_of c with
      | Some d => digits (10 * acc + d) true r
      | None => if Ascii.eqb c "_" && prev then
                  match r with
                  | EmptyString => None
                  | String _ _ => digits acc false r
                  end
                else None
      end
  end.

(** [int(s)] for a str: optional blanks, an optional sign, then digits. *)
Definition int_of_str (s : string) : option Z :=
  match strip s with
  | String "+" r => digits 0 false r
  | String "-" r => Z.opp <$> digits 0 false r
  | r => digits 0 false r
  end.

(** [int(v)]: a bool counts as 0 or 1, text is parsed ([ValueError] when it
    is not a number), and [None], lists and dicts raise [TypeError]. *)
Definition int (v : value) : result Z :=
  match v with
  | VBool b => Ok (if b then 1 else 0)
  | VInt n => Ok n
  | VStr s => match int_of_str s with
              | Some n => Ok n
              | None => Raise ValueError
              end
  | VNone | VList _ | VDict _ => Raise TypeError
  end.

End Py.

(** ** The request, as the pydantic models parse it *)

Record Context : Type := {
  name : string;
  lifespan_count : option Z;
  ctx_parameters : option (gmap string value)
}.

Record QueryResult : Type := {
  parameters : gmap string value;
  intent : gmap string value;
  output_contexts : option (list Context)
}.

Record WebhookRequest : Type := {
  query_result : QueryResult
}.

Record WebhookResponse : Type := {
  fulfillmentText : string
}.

(** ** Request normalisation *)

(** The test of the loop body: ['awaiting-loan-details' in context.name and
    context.parameters]; an absent or empty [parameters] is falsy. *)
Definition context_matches (context : Context) : bool :=
  Py.str_in "awaiting-loan-details" (name context) &&
  match ctx_parameters context with
  | Some p => negb (bool_decide (p = ∅))
  | None => false
  end.

(** [d.update(other)]: the keys of [other] overwrite those of [d]. *)
Definition update (d other : gmap string value) : gmap string value :=
  other ∪ d.

Definition get_merged_parameters (query_result : QueryResult) : gmap string value :=
  let merged_params : gmap string value := ∅ in
  let merged_params :=
    match output_contexts query_result with
    | Some ((_ :: _) as contexts) =>
        foldl (fun merged context =>
                 if context_matches context
                 then update merged (default ∅ (ctx_parameters context))
                 else merged)
              merged_params contexts
    | Some [] | None => merged_params
    end in
  update merged_params (parameters query_result).

Definition determine_loan_type (params : gmap string value) : value :=
  if Py.truthy (Py.get params "loan-type") then Py.get params "loan-type"
  else if Py.truthy (Py.get params "Home_eligibility") then VStr "home"
  else if Py.truthy (Py.get params "Car_eligibility") then VStr "car"
  else if Py.truthy (Py.get params "education_eligibility")
          || Py.truthy (Py.get params "edu_eligibility") then VStr "education"
  else if Py.truthy (Py.get params "personal_eligibility") then VStr "personal"
  else if Py.truthy (Py.get params "Business_eligibility") then VStr "business"
  else VNone.

(** [fallback_name] is [None] when the caller gives no fallback; an empty
    name is falsy and is not looked up either. *)
Definition get_parameter (params : gmap string value) (param_name : string)
    (fallback_name : option string) : value :=
  let value := Py.get params param_name in
  let value :=
    match fallback_name with
    | Some fb => if Py.is_none value && negb (String.eqb fb "")
                 then Py.get params fb else value
    | None => value
    end in
  if Py.is_none value then VNone
  else if Py.isinstance_dict value && Py.contains_key "amount" value
    then Py.getitem_key value "amount"
  else if Py.isinstance_list value && Py.truthy value
    then Py.getitem_0 value
  else if negb (Py.eq_str value "") then value
  else VNone.

(** ** The fixed responses *)

Module Msg.
Definition undetermined : string :=
  "I'm sorry, I couldn't determine the loan type. Please specify if it's for a car, home, education, business, or personal use.".

Definition home_ok : string :=
  "Excellent! Based on your age and income, you are eligible for a home loan.".
Definition home_no : string :=
  "Sorry, you do not meet the criteria for a home loan. You must be at least 21 years old and have a minimum monthly income of ₹30,000.".
Definition home_ask : string :=
  "To check your home loan eligibility, I need a few more details. What is your age and your monthly income?(e.g., My age is ** and I make ****)".

Definition car_ok : string :=
  "Great news! You are eligible for a car loan.".
Definition car_no : string :=
  "Sorry, you do not meet the criteria for a car loan. You must be at least 18 years old and have a minimum monthly income of ₹20,000.".
Definition car_ask : string :=
  "To check your eligibility for a car loan, I need to know your age and monthly income(e.g., My age is ** and I make ****).".

Definition personal_ok : string :=
  "Great news! You are eligible for a personal loan.".
Definition personal_no : string :=
  "Sorry, you do not meet the criteria for a personal loan. You must be at least 25 years old and have a minimum monthly income of ₹25,000.".
Definition personal_ask : string :=
  "To check your eligibility for a personal loan, I need to know your age and monthly income(e.g., My age is ** and I make ****).".

Definition education_ok : string :=
  "Congratulations! You are eligible for an education loan.".
Definition education_no : string :=
  "Sorry, you do not meet the criteria for an education loan. You must be a graduate and no older than 30.".
Definition education_ask : string :=
  "To check your eligibility for an education loan, I need your age and qualification (e.g.,My age is ** and 'under graduate'or 'post graduate').".

Definition business_ok : string :=
  "Fantastic! You are eligible for a business loan.".
Definition business_no : string :=
  "Sorry, to be eligible for a business loan, your minimum monthly income must be at least ₹40,000.".
Definition business_ask : string :=
  "To check your eligibility for a business loan, I need to know your monthly income(e.g., My age is ** and I make ****).".
End Msg.

(** ** Eligibility evaluation *)

(** The [if]/[elif] chain of the handler on the derived loan type and the
    three extracted values.  [x and y] evaluates [y] only when [x] is true, so
    the second coercion is not reached when the first comparison fails. *)
Definition eligibility_logic (loan_type age income qualification : value)
    : result string :=
  let response_text := Msg.undetermined in
  if Py.eq_str loan_type "home" then
    if negb (Py.is_none age) && negb (Py.is_none income) then
      let* a := Py.int age in
      let* c := (if a >=? 21 then let* i := Py.int income in Ok (i >=? 30000)
                 else Ok false) in
      if c then Ok Msg.home_ok else Ok Msg.home_no
    else Ok Msg.home_ask
  else if Py.eq_str loan_type "car" then
    if negb (Py.is_none age) && negb (Py.is_none income) then
      let* a := Py.int age in
      let* c := (if a >=? 18 then let* i := Py.int income in Ok (i >=? 20000)
                 else Ok false) in
      if c then Ok Msg.car_ok else Ok Msg.car_no
    else Ok Msg.car_ask
  else if Py.eq_str loan_type "personal" then
    if negb (Py.is_none age) && negb (Py.is_none income) then
      let* a := Py.int age in
      let* c := (if a >=? 25 then let* i := Py.int income in Ok (i >=? 25000)
                 else Ok false) in
      if c then Ok Msg.personal_ok else Ok Msg.personal_no
    else Ok Msg.personal_ask
  else if Py.eq_str loan_type "education" then
    if negb (Py.is_none age) && negb (Py.is_none qualification) then
      let* c := (if Py.str_in "graduate" (Py.lower (Py.str qualification))
                 then let* a := Py.int age in Ok (a <=? 30)
                 else Ok false) in
      if c then Ok Msg.education_ok else Ok Msg.education_no
    else Ok Msg.education_ask
  else if Py.eq_str loan_type "business" then
    if negb (Py.is_none income) then
      let* i := Py.int income in
      if i >=? 40000 then Ok Msg.business_ok else Ok Msg.business_no
    else Ok Msg.business_ask
  else Ok response_text.

Definition loan_eligibility_webhook (request : WebhookRequest)
    : result WebhookResponse :=
  let query_result := query_result request in
  let params := get_merged_parameters query_result in
  let loan_type := determine_loan_type params in
  let age := get_parameter params "age" (Some "number") in
  let income := get_parameter params "income" (Some "number") in
  let qualification := get_parameter params "qualification" None in
  let* response_text := eligibility_logic loan_type age income qualification in
  Ok {| fulfillmentText := response_text |}.

(** Requests built from the current turn alone, and with one context. *)
Definition turn (params : gmap string value) : WebhookRequest :=
  {| query_result := {| parameters := params; intent := ∅; output_contexts := Some [] |} |}.

Definition turn_with (contexts : list Context) (params : gmap string value)
    : WebhookRequest :=
  {| query_result := {| parameters := params; intent := ∅;
                        output_contexts := Some contexts |} |}.

Definition say (s : string) : result WebhookResponse :=
  Ok {| fulfillmentText := s |}.

(** The local variables of the handler, as functions of the request. *)
Definition params_of (request : WebhookRequest) : gmap string value :=
  get_merged_parameters (query_result request).
Definition loan_type_of (request : WebhookRequest) : value :=
  determine_loan_type (params_of request).
Definition age_of (request : WebhookRequest) : value :=
  get_parameter (params_of request) "age" (Some "number").
Definition income_of (request : WebhookRequest) : value :=
  get_parameter (params_of request) "income" (Some "number").
Definition qualification_of (request : WebhookRequest) : value :=
  get_parameter (params_of request) "qualification" None.

(** The contexts of a request, none when the field is null. *)
Definition contexts_of (query_result : QueryResult) : list Context :=
  default [] (output_contexts query_result).

(** ** What the specification says, in its own words *)

Module Spec.

(** "Last matching context in list order wins": the value that the last
    matching context setting [k] gives to [k]. *)
Fixpoint last_setting (k : string) (contexts : list Context) : option value :=
  match contexts with
  | [] => None
  | c :: rest =>
      match last_setting k rest with
      | Some v => Some v
      | None => if context_matches c then default ∅ (ctx_parameters c) !! k else None
      end
  end.

(** Loan type derivation: the ordered checklist of flag keys, each entry with
    the loan type it stands for. *)
Definition checklist : list (list string * string) :=
  [ (["Home_eligibility"], "home");
    (["Car_eligibility"], "car");
    (["education_eligibility"; "edu_eligibility"], "education");
    (["personal_eligibility"], "personal");
    (["Business_eligibility"], "business") ].

(** The keys that the derivation reads. *)
Definition loan_type_keys : list string :=
  "loan-type" :: concat (List.map fst checklist).

Definition flag_set (params : gmap string value) (keys : list string) : bool :=
  existsb (fun k => Py.truthy (Py.get params k)) keys.

(** First match wins: a truthy explicit [loan-type] verbatim, else the type
    of the first entry of the checklist with a truthy flag, else null. *)
Definition loan_type (params : gmap string value) : value :=
  if Py.truthy (Py.get params "loan-type") then Py.get params "loan-type"
  else match List.find (fun entry => flag_set params (fst entry)) checklist with
       | Some entry => VStr (snd entry)
       | None => VNone
       end.

(** Value extraction: the primary key's value, the fallback key being
    consulted only when the primary is absent or null.  A fallback that is
    not given, or whose name is empty, is no fallback. *)
Definition resolved (params : gmap string value) (primary : string)
    (fallback : option string) : value :=
  match params !! primary with
  | Some VNone | None =>
      match fallback with
      | Some EmptyString | None => VNone
      | Some fb => default VNone (params !! fb)
      end
  | Some v => v
  end.

(** Null stays null; a structured object with an [amount] field gives that
    field; a non-empty sequence gives its first element; the empty string
    gives null; anything else is the value itself. *)
Definition unwrap (v : value) : value :=
  match v with
  | VNone => VNone
  | VDict d =>
      match Py.assoc "amount" d with
      | Some amount => amount
      | None => v
      end
  | VList (first :: _) => first
  | VStr EmptyString => VNone
  | _ => v
  end.

(** The decision table. *)
Inductive product : Type := Home | Car | Personal | Education | Business.

Definition name (p : product) : string :=
  match p with
  | Home => "home"
  | Car => "car"
  | Personal => "personal"
  | Education => "education"
  | Business => "business"
  end.

(** Minimum age and minimum income of the products decided on both. *)
Definition thresholds (p : product) : option (Z * Z) :=
  match p with
  | Home => Some (21, 30000)
  | Car => Some (18, 20000)
  | Personal => Some (25, 25000)
  | Education | Business => None
  end.

(** The required attributes of a product, among the three extracted values. *)
Definition required (p : product) (age income qualification : value) : list value :=
  match p with
  | Home | Car | Personal => [age; income]
  | Education => [age; qualification]
  | Business => [income]
  end.

Definition eligible (p : product) : string :=
  match p with
  | Home => Msg.home_ok
  | Car => Msg.car_ok
  | Personal => Msg.personal_ok
  | Education => Msg.education_ok
  | Business => Msg.business_ok
  end.

Definition ineligible (p : product) : string :=
  match p with
  | Home => Msg.home_no
  | Car => Msg.car_no
  | Personal => Msg.personal_no
  | Education => Msg.education_no
  | Business => Msg.business_no
  end.

Definition missing_info (p : product) : string :=
  match p with
  | Home => Msg.home_ask
  | Car => Msg.car_ask
  | Personal => Msg.personal_ask
  | Education => Msg.education_ask
  | Business => Msg.business_ask
  end.

End Spec.

(** One round of the loop of [get_merged_parameters]. *)
Definition overlay (merged : gmap string value) (context : Context)
    : gmap string value :=
  if context_matches context
  then update merged (default ∅ (ctx_parameters context))
  else merged.

(** ** Sample requests *)

Definition income_context : Context :=
  {| name := "awaiting-loan-details"; lifespan_count := None;
     ctx_parameters := Some {[ "income" := VInt 10000 ]} |}.

Definition income_turn : QueryResult :=
  {| parameters := {[ "income" := VInt 50000 ]}; intent := ∅;
     output_contexts := Some [income_context] |}.


Definition two_contexts : list Context :=
  [ {| name := "awaiting-loan-details"; lifespan_count := Some 5;
       ctx_parameters := Some {[ "loan-type" := VStr "car" ]} |};
    {| name := "session/awaiting-loan-details-followup"; lifespan_count := Some 2;
       ctx_parameters := Some {[ "loan-type" := VStr "home" ]} |};
    {| name := "awaiting-loan-details"; lifespan_count := None;
       ctx_parameters := Some ∅ |};
    {| name := "other-context"; lifespan_count := None;
       ctx_parameters := Some {[ "loan-type" := VStr "business" ]} |} ].

Definition structured_income : gmap string value :=
  {[ "income" := VDict [("amount", VInt 45000); ("currency", VStr "INR")] ]}.

Definition listed_qualification : gmap string value :=
  {[ "qualification" := VList [VStr "graduate"] ]}.

Definition empty_list_age : gmap string value :=
  <[ "loan-type" := VStr "home" ]>
    (<[ "age" := VList [] ]> {[ "income" := VInt 50000 ]}).

Definition non_numeric_age : gmap string value :=
  <[ "loan-type" := VStr "home" ]>
    (<[ "age" := VStr "abc" ]> {[ "income" := VInt 50000 ]}).

Definition non_numeric_age_graduate : gmap string value :=
  <[ "loan-type" := VStr "education" ]>
    (<[ "age" := VStr "abc" ]> {[ "qualification" := VStr "graduate" ]}).

Definition non_numeric_income : gmap string value :=
  <[ "loan-type" := VStr "business" ]> {[ "income" := VStr "abc" ]}.

Definition home_request (age income : Z) : WebhookRequest :=
  turn (<[ "loan-type" := VStr "home" ]>
          (<[ "age" := VInt age ]> {[ "income" := VInt income ]})).

Definition education_request (qualification : string) (age : Z) : WebhookRequest :=
  turn (<[ "loan-type" := VStr "education" ]>
          (<[ "age" := VInt age ]> {[ "qualification" := VStr qualification ]})).

Definition business_request (income : Z) : WebhookRequest :=
  turn (<[ "loan-type" := VStr "business" ]> {[ "income" := VInt income ]}).

Definition car_request_empty_age : WebhookRequest :=
  turn (<[ "loan-type" := VStr "car" ]>
          (<[ "age" := VStr "" ]> {[ "income" := VInt 30000 ]})).

(** ** The claims that fail as they are worded *)

Module Stated.

(** Home, car and personal as worded: with age and income extracted, the
    eligible message exactly when the coerced values meet the thresholds, and
    the ineligible message in every other case. *)
Definition thresholds_met (amin imin : Z) (age income : value) : Prop :=
  exists a i, Py.int age = Ok a /\ Py.int income = Ok i /\ amin <= a /\ imin <= i.

Definition numeric_claim (request : WebhookRequest) : Prop :=
  forall (p : Spec.product) (amin imin : Z),
    Spec.thresholds p = Some (amin, imin) ->
    loan_type_of request = VStr (Spec.name p) ->
    age_of request <> VNone ->
    income_of request <> VNone ->
    (loan_eligibility_webhook request = say (Spec.eligible p)
     <-> thresholds_met amin imin (age_of request) (income_of request))
    /\ (~ thresholds_met amin imin (age_of request) (income_of request) ->
        loan_eligibility_webhook request = say (Spec.ineligible p)).

(** Education as worded. *)
Definition graduate_met (age qualification : value) : Prop :=
  Py.str_in "graduate" (Py.lower (Py.str qualification)) = true
  /\ exists a, Py.int age = Ok a /\ a <= 30.

Definition education_claim (request : WebhookRequest) : Prop :=
  loan_type_of request = VStr "education" ->
  age_of request <> VNone ->
  qualification_of request <> VNone ->
  (loan_eligibility_webhook request = say Msg.education_ok
   <-> graduate_met (age_of request) (qualification_of request))
  /\ (~ graduate_met (age_of request) (qualification_of request) ->
      loan_eligibility_webhook request = say Msg.education_no).

(** Business as worded. *)
Definition income_met (income : value) : Prop :=
  exists i, Py.int income = Ok i /\ 40000 <= i.

Definition business_claim (request : WebhookRequest) : Prop :=
  loan_type_of request = VStr "business" ->
  (income_of request <> VNone ->
   (loan_eligibility_webhook request = say Msg.business_ok
    <-> income_met (income_of request))
   /\ (~ income_met (income_of request) ->
       loan_eligibility_webhook request = say Msg.business_no))
  /\ (income_of request = VNone ->
      loan_eligibility_webhook request = say Msg.business_ask).

End Stated.

(** ** Further sample requests *)

Definition unrelated_context : Context :=
  {| name := "other-context"; lifespan_count := Some 1;
     ctx_parameters := Some {[ "loan-type" := VStr "business" ]} |}.

Definition emptied_context : Context :=
  {| name := "awaiting-loan-details"; lifespan_count := Some 1;
     ctx_parameters := Some ∅ |}.

Definition turn_without_memory : QueryResult :=
  {| parameters := {[ "age" := VInt 30 ]}; intent := ∅;
     output_contexts := Some [unrelated_context; emptied_context] |}.

Definition remembered_home : Context :=
  {| name := "projects/p/agent/sessions/s/contexts/awaiting-loan-details-followup";
     lifespan_count := Some 2;
     ctx_parameters := Some (<[ "loan-type" := VStr "home" ]>
                               {[ "income" := VInt 50000 ]}) |}.

(** The user asked about a home loan before; the current turn carries a car
    flag, an age and an income that the platform left empty. *)
Definition turn_after_home : QueryResult :=
  {| parameters := <[ "Car_eligibility" := VStr "car loan" ]>
                     (<[ "age" := VInt 30 ]> {[ "income" := VStr "" ]});
     intent := ∅;
     output_contexts := Some [remembered_home] |}.

Definition number_only_request : WebhookRequest :=
  turn (<[ "loan-type" := VStr "home" ]> {[ "number" := VInt 40000 ]}).

Definition capitalised_request : WebhookRequest :=
  turn (<[ "loan-type" := VStr "Home" ]>
          (<[ "age" := VStr "abc" ]> {[ "income" := VInt 50000 ]})).

Definition school_request : WebhookRequest :=
  turn (<[ "loan-type" := VStr "education" ]>
          (<[ "age" := VStr "abc" ]> {[ "qualification" := VStr "High School" ]})).

Definition young_request : WebhookRequest :=
  turn (<[ "loan-type" := VStr "home" ]>
          (<[ "age" := VInt 18 ]> {[ "income" := VStr "abc" ]})).

(** ** Evaluation on sample inputs *)

Example int_of_str_ex1 : Py.int_of_str " 25 " = Some 25. Proof. reflexivity. Qed.
Example int_of_str_ex2 : Py.int_of_str "-1_000" = Some (-1000). Proof. reflexivity. Qed.
Example int_of_str_ex3 : Py.int_of_str "abc" = None. Proof. reflexivity. Qed.
Example int_of_str_ex4 : Py.int_of_str "1__0" = None. Proof. reflexivity. Qed.
Example int_of_str_ex5 : Py.int_of_str "" = None. Proof. reflexivity. Qed.
Example int_of_str_ex6 : Py.int_of_str "12_" = None. Proof. reflexivity. Qed.
Example int_of_str_ex7 : Py.int_of_str "- 5" = None. Proof. reflexivity. Qed.
Example repr_ex1 :
  Py.repr (VList [VStr "Graduate"; VInt (-3); VDict [("a", VBool true)]])
  = "['Graduate', -3, {'a': True}]".
Proof. reflexivity. Qed.
Example repr_ex2 :
  Py.repr (VStr "it's") = String Py.double_quote ("it's" +:+ String Py.double_quote "").
Proof. reflexivity. Qed.
Example repr_ex3 : Py.repr (VStr "a\b") = "'a\\b'". Proof. reflexivity. Qed.

Example home_followup :
  loan_eligibility_webhook
    (turn_with [ {| name := "projects/p/agent/sessions/s/contexts/awaiting-loan-details-followup";
                    lifespan_count := Some 2;
                    ctx_parameters := Some {[ "loan-type" := VStr "home" ]} |} ]
               (<[ "age" := VInt 25 ]> {[ "income" := VInt 35000 ]}))
  = say Msg.home_ok.
Proof. vm_compute. reflexivity. Qed.

Example two_contexts_last_matching :
  get_merged_parameters
    {| parameters := {[ "age" := VInt 30 ]}; intent := ∅;
       output_contexts := Some two_contexts |} !! "loan-type"
  = Some (VStr "home").
Proof. vm_compute. reflexivity. Qed.

(** ** Text lemmas *)

Lemma prefix_app (n h : string) :
  String.prefix n h = true <-> exists post, h = n +:+ post.
Proof.
  revert h. induction n as [|c n IH]; intros h.
  - split; [intros _; exists h; reflexivity | intros _; destruct h; reflexivity].
  - destruct h as [|c' h]; simpl.
    + split; [discriminate | intros [post H]; discriminate].
    + destruct (ascii_dec c c') as [->|Hne].
      * rewrite IH. split; intros [post H]; exists post.
        -- by rewrite H.
        -- by injection H.
      * split; [discriminate | intros [post H]; injection H; congruence].
Qed.

(** [needle in hay] holds exactly when [hay] is some text, then [needle],
    then some text. *)
Lemma str_in_spec (n h : string) :
  Py.str_in n h = true <-> exists pre post, h = pre +:+ n +:+ post.
Proof.
  induction h as [|c h IH]; cbn [Py.str_in].
  - rewrite orb_false_r, prefix_app. split.
    + intros [post H]. exists "", post. exact H.
    + intros [pre [post H]]. destruct pre; simpl in H; [by exists post | discriminate].
  - rewrite orb_true_iff, prefix_app, IH. split.
    + intros [[post H] | [pre [post H]]].
      * exists "", post. exact H.
      * exists (String c pre), post. simpl. by rewrite H.
    + intros [pre [post H]]. destruct pre as [|c' pre]; simpl in H.
      * left. by exists post.
      * right. injection H as _ H. by exists pre, post.
Qed.

(** ** The merge *)

Lemma get_merged_parameters_fold (qr : QueryResult) :
  get_merged_parameters qr
  = update (foldl overlay ∅ (contexts_of qr)) (parameters qr).
Proof.
  unfold get_merged_parameters, contexts_of.
  destruct (output_contexts qr) as [[|c cs]|]; reflexivity.
Qed.

Lemma lookup_update (d other : gmap string value) (k : string) :
  update d other !! k
  = match other !! k with Some v => Some v | None => d !! k end.
Proof.
  unfold update. rewrite lookup_union.
  destruct (other !! k), (d !! k); reflexivity.
Qed.

Lemma lookup_overlays (contexts : list Context) (m : gmap string value) (k : string) :
  foldl overlay m contexts !! k
  = match Spec.last_setting k contexts with Some v => Some v | None => m !! k end.
Proof.
  revert m. induction contexts as [|c cs IH]; intros m; simpl; [reflexivity|].
  rewrite IH. destruct (Spec.last_setting k cs); [reflexivity|].
  unfold overlay. destruct (context_matches c); [|reflexivity].
  apply lookup_update.
Qed.

Lemma overlays_filter (contexts : list Context) (m : gmap string value) :
  foldl overlay m (List.filter context_matches contexts) = foldl overlay m contexts.
Proof.
  revert m. induction contexts as [|c cs IH]; intros m; simpl; [reflexivity|].
  assert (Hc : overlay m c = if context_matches c
                             then update m (default ∅ (ctx_parameters c)) else m)
    by reflexivity.
  destruct (context_matches c); simpl; rewrite IH, Hc; reflexivity.
Qed.

Lemma context_matches_spec (c : Context) :
  context_matches c = true
  <-> (exists pre post, name c = pre +:+ "awaiting-loan-details" +:+ post)
      /\ (exists p, ctx_parameters c = Some p /\ p <> ∅).
Proof.
  unfold context_matches. rewrite andb_true_iff, str_in_spec.
  apply and_iff_compat_l. destruct (ctx_parameters c) as [p|].
  - rewrite negb_true_iff, bool_decide_eq_false. split.
    + intros H. by exists p.
    + intros [p' [[= <-] H]]. exact H.
  - split; [discriminate | intros [p [[=] _]]].
Qed.

(** C5. For every request and every key present in the current turn's
    [parameters], the merged mapping gives that key the current-turn value:
    no value carried by a context overrides it. *)
Theorem current_turn_wins (qr : QueryResult) (k : string) (v : value) :
  parameters qr !! k = Some v ->
  get_merged_parameters qr !! k = Some v.
Proof.
  intros H. rewrite get_merged_parameters_fold, lookup_update, H. reflexivity.
Qed.

Lemma current_turn_wins_witness :
  parameters income_turn !! "income" = Some (VInt 50000)
  /\ get_merged_parameters income_turn !! "income" = Some (VInt 50000).
Proof.
  split; [reflexivity | apply (current_turn_wins income_turn "income"); reflexivity].
Defined.

(** C6. The merge overlays exactly the contexts whose name contains
    [awaiting-loan-details] and whose parameters are non-empty, in list order:
    a key that the current turn does not set gets the value of the last
    matching context that sets it, and the contexts that do not match can be
    dropped without changing the merged mapping. *)
Theorem merge_last_matching_context_wins :
  (forall (qr : QueryResult) (k : string),
     get_merged_parameters qr !! k
     = match parameters qr !! k with
       | Some v => Some v
       | None => Spec.last_setting k (contexts_of qr)
       end)
  /\ (forall qr : QueryResult,
        get_merged_parameters
          {| parameters := parameters qr; intent := intent qr;
             output_contexts := Some (List.filter context_matches (contexts_of qr)) |}
        = get_merged_parameters qr)
  /\ (forall c : Context,
        context_matches c = true
        <-> (exists pre post, name c = pre +:+ "awaiting-loan-details" +:+ post)
            /\ (exists p, ctx_parameters c = Some p /\ p <> ∅)).
Proof.
  split; [|split].
  - intros qr k. rewrite get_merged_parameters_fold, lookup_update, lookup_overlays.
    rewrite lookup_empty. destruct (parameters qr !! k); [reflexivity|].
    destruct (Spec.last_setting k (contexts_of qr)); reflexivity.
  - intros qr. rewrite !get_merged_parameters_fold. unfold contexts_of at 1. simpl.
    rewrite overlays_filter. reflexivity.
  - apply context_matches_spec.
Qed.

(** ** Loan type derivation and value extraction *)

Lemma webhook_bind (request : WebhookRequest) :
  loan_eligibility_webhook request
  = let* response_text :=
      eligibility_logic (loan_type_of request) (age_of request)
                        (income_of request) (qualification_of request) in
    say response_text.
Proof. reflexivity. Qed.

Lemma webhook_says (request : WebhookRequest) (s : string) :
  eligibility_logic (loan_type_of request) (age_of request)
                    (income_of request) (qualification_of request) = Ok s ->
  loan_eligibility_webhook request = say s.
Proof. intros H. rewrite webhook_bind, H. reflexivity. Qed.

Lemma webhook_raises (request : WebhookRequest) (e : exn) :
  eligibility_logic (loan_type_of request) (age_of request)
                    (income_of request) (qualification_of request) = Raise e ->
  loan_eligibility_webhook request = Raise e.
Proof. intros H. rewrite webhook_bind, H. reflexivity. Qed.

Lemma say_inj (s t : string) : say s = say t -> s = t.
Proof. intros [= H]. exact H. Qed.

Lemma determine_loan_type_spec (params : gmap string value) :
  determine_loan_type params = Spec.loan_type params.
Proof.
  unfold determine_loan_type, Spec.loan_type, Spec.checklist, Spec.flag_set.
  destruct (Py.truthy (Py.get params "loan-type")); [reflexivity|]. simpl.
  rewrite !orb_false_r.
  repeat match goal with
         | |- context [if ?b then _ else _] => destruct b; try reflexivity
         end.
Qed.

(** C7. Loan type derivation is first-match-wins over the ordered checklist:
    a truthy [loan-type] is returned verbatim, otherwise the first truthy flag
    among Home, Car, education or edu, personal, Business decides, and with
    none of them the loan type is null and the response is the fixed prompt
    asking which loan is meant. *)
Theorem loan_type_first_match_wins :
  (forall params : gmap string value,
     determine_loan_type params = Spec.loan_type params)
  /\ (forall request : WebhookRequest,
        loan_type_of request = VNone ->
        loan_eligibility_webhook request = say Msg.undetermined)
  /\ (forall request : WebhookRequest,
        (forall k, In k Spec.loan_type_keys -> params_of request !! k = None) ->
        loan_type_of request = VNone
        /\ loan_eligibility_webhook request = say Msg.undetermined).
Proof.
  assert (Hnone : forall request : WebhookRequest,
            loan_type_of request = VNone ->
            loan_eligibility_webhook request = say Msg.undetermined).
  { intros request H. apply webhook_says. rewrite H. reflexivity. }
  split; [apply determine_loan_type_spec | split; [exact Hnone|]].
  intros request H.
  assert (Hl : loan_type_of request = VNone).
  { unfold loan_type_of, determine_loan_type, Py.get.
    rewrite !H by (simpl; tauto). reflexivity. }
  split; [exact Hl | exact (Hnone request Hl)].
Qed.

Lemma loan_type_first_match_wins_witness :
  loan_type_of (turn ∅) = VNone
  /\ loan_eligibility_webhook (turn ∅) = say Msg.undetermined.
Proof.
  split; [reflexivity|].
  apply (proj1 (proj2 loan_type_first_match_wins) (turn ∅)). reflexivity.
Defined.

Lemma get_parameter_resolved (params : gmap string value) (k : string)
    (fb : option string) :
  get_parameter params k fb
  = let value := Spec.resolved params k fb in
    if Py.is_none value then VNone
    else if Py.isinstance_dict value && Py.contains_key "amount" value
      then Py.getitem_key value "amount"
    else if Py.isinstance_list value && Py.truthy value
      then Py.getitem_0 value
    else if negb (Py.eq_str value "") then value
    else VNone.
Proof.
  unfold get_parameter, Spec.resolved, Py.get.
  destruct (params !! k) as [[]|]; simpl; try reflexivity;
    destruct fb as [[|c fb]|]; reflexivity.
Qed.

Lemma get_parameter_spec (params : gmap string value) (k : string)
    (fb : option string) :
  get_parameter params k fb = Spec.unwrap (Spec.resolved params k fb).
Proof.
  rewrite get_parameter_resolved.
  destruct (Spec.resolved params k fb) as [| b | n | s | l | d]; simpl; try reflexivity.
  - destruct s; reflexivity.
  - destruct l; reflexivity.
  - destruct (Py.assoc "amount" d); reflexivity.
Qed.

(** C8. [get_parameter] takes the primary key's value, or the fallback key's
    when the primary is absent or null, and returns null for null, the
    [amount] field of a structured object that has one, the first element of
    a non-empty list, null for the empty string and the value itself
    otherwise; [{amount: 45000, currency: "INR"}] gives 45000 and
    [["graduate"]] gives "graduate". *)
Theorem get_parameter_unwraps :
  (forall (params : gmap string value) (k : string) (fb : option string),
     get_parameter params k fb = Spec.unwrap (Spec.resolved params k fb))
  /\ get_parameter structured_income "income" (Some "number") = VInt 45000
  /\ get_parameter listed_qualification "qualification" None = VStr "graduate".
Proof.
  split; [apply get_parameter_spec | split; reflexivity].
Qed.

(** ** The decision table *)

Lemma is_none_false (v : value) : v <> VNone -> Py.is_none v = false.
Proof. destruct v; [congruence | reflexivity ..]. Qed.

Lemma is_none_true (v : value) : Py.is_none v = true <-> v = VNone.
Proof. destruct v; split; (reflexivity || discriminate). Qed.

Lemma webhook_says_iff (request : WebhookRequest) (s : string) :
  loan_eligibility_webhook request = say s
  <-> eligibility_logic (loan_type_of request) (age_of request)
                        (income_of request) (qualification_of request) = Ok s.
Proof.
  rewrite webhook_bind.
  destruct (eligibility_logic _ _ _ _) as [t|e]; simpl; split;
    try discriminate; intros [= ->]; reflexivity.
Qed.

Lemma logic_thresholds (p : Spec.product) (amin imin : Z)
    (age income qualification : value) :
  Spec.thresholds p = Some (amin, imin) ->
  eligibility_logic (VStr (Spec.name p)) age income qualification
  = if negb (Py.is_none age) && negb (Py.is_none income) then
      let* a := Py.int age in
      let* c := (if a >=? amin then let* i := Py.int income in Ok (i >=? imin)
                 else Ok false) in
      if c then Ok (Spec.eligible p) else Ok (Spec.ineligible p)
    else Ok (Spec.missing_info p).
Proof. destruct p; intros [= <- <-]; reflexivity. Qed.

Lemma logic_education (age income qualification : value) :
  eligibility_logic (VStr "education") age income qualification
  = if negb (Py.is_none age) && negb (Py.is_none qualification) then
      let* c := (if Py.str_in "graduate" (Py.lower (Py.str qualification))
                 then let* a := Py.int age in Ok (a <=? 30)
                 else Ok false) in
      if c then Ok Msg.education_ok else Ok Msg.education_no
    else Ok Msg.education_ask.
Proof. reflexivity. Qed.

Lemma logic_business (age income qualification : value) :
  eligibility_logic (VStr "business") age income qualification
  = if negb (Py.is_none income) then
      let* i := Py.int income in
      if i >=? 40000 then Ok Msg.business_ok else Ok Msg.business_no
    else Ok Msg.business_ask.
Proof. reflexivity. Qed.

Lemma verdicts_differ (p : Spec.product) :
  Spec.eligible p <> Spec.ineligible p
  /\ Spec.missing_info p <> Spec.ineligible p
  /\ Spec.missing_info p <> Spec.eligible p.
Proof. destruct p; repeat split; discriminate. Qed.

(** Cases on a comparison of the handler. *)
Ltac compare_cases :=
  repeat match goal with
         | |- context [?a >=? ?b] =>
             rewrite (Z.geb_leb a b); destruct (Z.leb_spec b a)
         | |- context [?a <=? ?b] => destruct (Z.leb_spec a b)
         end.

Lemma numeric_rule (p : Spec.product) (amin imin : Z)
    (age income qualification : value) :
  Spec.thresholds p = Some (amin, imin) ->
  age <> VNone -> income <> VNone ->
  (eligibility_logic (VStr (Spec.name p)) age income qualification
     = Ok (Spec.eligible p)
   <-> exists a i, Py.int age = Ok a /\ Py.int income = Ok i /\ amin <= a /\ imin <= i)
  /\ (forall a i, Py.int age = Ok a -> Py.int income = Ok i ->
                 ~ (amin <= a /\ imin <= i) ->
                 eligibility_logic (VStr (Spec.name p)) age income qualification
                 = Ok (Spec.ineligible p)).
Proof.
  intros Ht Ha Hi. rewrite (logic_thresholds p amin imin) by exact Ht.
  rewrite (is_none_false age Ha), (is_none_false income Hi). simpl.
  destruct (verdicts_differ p) as (Hd & _ & _).
  destruct (Py.int age) as [a|ea]; simpl.
  - compare_cases.
    + destruct (Py.int income) as [i|ei]; simpl.
      * compare_cases.
        -- split; [split; [intros _; exists a, i; auto | reflexivity]|].
           intros a' i' [= <-] [= <-] Hn. tauto.
        -- split; [split|].
           ++ intros [= Heq]. congruence.
           ++ intros (a' & i' & [= <-] & [= <-] & _ & Hle). lia.
           ++ reflexivity.
      * split; [split; [discriminate | intros (a' & i' & _ & [=] & _)]|].
        intros a' i' _ [=].
    + simpl. split; [split|].
      * intros [= Heq]. congruence.
      * intros (a' & i' & [= <-] & _ & Hle & _). lia.
      * reflexivity.
  - split; [split; [discriminate | intros (a' & i' & [=] & _)]|].
    intros a' i' [=].
Qed.

(** [x and y] does not evaluate [y] when [x] is false: an age below the
    minimum gives the ineligible message whatever the income is. *)
Lemma numeric_rule_short_circuit (p : Spec.product) (amin imin a : Z)
    (age income qualification : value) :
  Spec.thresholds p = Some (amin, imin) ->
  age <> VNone -> income <> VNone ->
  Py.int age = Ok a -> a < amin ->
  eligibility_logic (VStr (Spec.name p)) age income qualification
  = Ok (Spec.ineligible p).
Proof.
  intros Ht Ha Hi Ea Hlt. rewrite (logic_thresholds p amin imin) by exact Ht.
  rewrite (is_none_false age Ha), (is_none_false income Hi), Ea. simpl.
  compare_cases; [lia | reflexivity].
Qed.


(** C1, as amended.  For a request whose loan type is home, car or personal
    and whose extracted age and income are both non-null, the response is the
    eligible message exactly when the integer coercions of age and income
    succeed and meet the thresholds of the product (home 21 and 30000, car 18
    and 20000, personal 25 and 25000); and when both coercions succeed and a
    threshold is not met, the response is the ineligible message of the
    product. *)
Theorem decision_table_numeric (request : WebhookRequest) (p : Spec.product)
    (amin imin : Z) :
  Spec.thresholds p = Some (amin, imin) ->
  loan_type_of request = VStr (Spec.name p) ->
  age_of request <> VNone ->
  income_of request <> VNone ->
  (loan_eligibility_webhook request = say (Spec.eligible p)
   <-> exists a i, Py.int (age_of request) = Ok a /\ Py.int (income_of request) = Ok i
                   /\ amin <= a /\ imin <= i)
  /\ (forall a i, Py.int (age_of request) = Ok a -> Py.int (income_of request) = Ok i ->
                 ~ (amin <= a /\ imin <= i) ->
                 loan_eligibility_webhook request = say (Spec.ineligible p)).
Proof.
  intros Ht Hl Ha Hi.
  destruct (numeric_rule p amin imin _ _ (qualification_of request) Ht Ha Hi)
    as [Hok Hno].
  split.
  - rewrite webhook_says_iff, Hl. exact Hok.
  - intros a i Ea Ei Hn. apply webhook_says. rewrite Hl. exact (Hno a i Ea Ei Hn).
Qed.

Lemma decision_table_numeric_witness :
  loan_eligibility_webhook (home_request 21 30000) = say Msg.home_ok
  /\ loan_eligibility_webhook (home_request 20 30000) = say Msg.home_no
  /\ loan_eligibility_webhook (home_request 21 29999) = say Msg.home_no.
Proof.
  split; [|split].
  - apply (proj1 (decision_table_numeric (home_request 21 30000) Spec.Home 21 30000
                    eq_refl eq_refl ltac:(discriminate) ltac:(discriminate))).
    exists 21, 30000. repeat split; (reflexivity || lia).
  - apply (proj2 (decision_table_numeric (home_request 20 30000) Spec.Home 21 30000
                    eq_refl eq_refl ltac:(discriminate) ltac:(discriminate))
             20 30000 eq_refl eq_refl). lia.
  - apply (proj2 (decision_table_numeric (home_request 21 29999) Spec.Home 21 30000
                    eq_refl eq_refl ltac:(discriminate) ltac:(discriminate))
             21 29999 eq_refl eq_refl). lia.
Defined.

(** C1, as worded, fails for the home request with age "abc" and income
    50000: both values are non-null, the thresholds are not met, and the
    handler raises instead of answering with the ineligible message. *)
Lemma decision_table_as_stated_fails :
  ~ Stated.numeric_claim (turn non_numeric_age).
Proof.
  intros H.
  destruct (H Spec.Home 21 30000 eq_refl eq_refl ltac:(discriminate) ltac:(discriminate))
    as [_ Hno].
  assert (Hr : loan_eligibility_webhook (turn non_numeric_age) = Raise ValueError)
    by reflexivity.
  rewrite Hr in Hno. discriminate Hno.
  intros (a & i & Ea & _). discriminate Ea.
Qed.

Lemma graduate_rule (age income qualification : value) :
  age <> VNone -> qualification <> VNone ->
  (eligibility_logic (VStr "education") age income qualification = Ok Msg.education_ok
   <-> Py.str_in "graduate" (Py.lower (Py.str qualification)) = true
       /\ exists a, Py.int age = Ok a /\ a <= 30)
  /\ (forall a, Py.int age = Ok a ->
               ~ (Py.str_in "graduate" (Py.lower (Py.str qualification)) = true
                  /\ a <= 30) ->
               eligibility_logic (VStr "education") age income qualification
               = Ok Msg.education_no).
Proof.
  intros Ha Hq. rewrite logic_education.
  rewrite (is_none_false age Ha), (is_none_false qualification Hq). simpl.
  destruct (Py.str_in "graduate" (Py.lower (Py.str qualification))); simpl.
  - destruct (Py.int age) as [a|ea]; simpl.
    + compare_cases.
      * split; [split; [intros _; split; [reflexivity | exists a; auto] | reflexivity]|].
        intros a' [= <-] Hn. tauto.
      * split; [split|].
        -- discriminate.
        -- intros (_ & a' & [= <-] & Hle). lia.
        -- reflexivity.
    + split; [split; [discriminate | intros (_ & a' & [=] & _)]|].
      intros a' [=].
  - split; [split; [discriminate | intros ([=] & _)] | reflexivity].
Qed.

(** C2, as amended.  For a request whose loan type is education and whose
    extracted age and qualification are both non-null, the response is the
    eligible message exactly when the lower-cased text of the qualification
    contains "graduate" and the integer coercion of age succeeds with a result
    of at most 30; and when the coercion of age succeeds and one of the two
    criteria is not met, the response is the education ineligible message.
    "Under Graduate" at 30 is eligible, "High School" at 30 and
    "Post Graduate" at 31 are ineligible. *)
Theorem education_rule :
  (forall request : WebhookRequest,
     loan_type_of request = VStr "education" ->
     age_of request <> VNone ->
     qualification_of request <> VNone ->
     (loan_eligibility_webhook request = say Msg.education_ok
      <-> Py.str_in "graduate" (Py.lower (Py.str (qualification_of request))) = true
          /\ exists a, Py.int (age_of request) = Ok a /\ a <= 30)
     /\ (forall a, Py.int (age_of request) = Ok a ->
                  ~ (Py.str_in "graduate"
                       (Py.lower (Py.str (qualification_of request))) = true
                     /\ a <= 30) ->
                  loan_eligibility_webhook request = say Msg.education_no))
  /\ loan_eligibility_webhook (education_request "Under Graduate" 30)
     = say Msg.education_ok
  /\ loan_eligibility_webhook (education_request "High School" 30)
     = say Msg.education_no
  /\ loan_eligibility_webhook (education_request "Post Graduate" 31)
     = say Msg.education_no.
Proof.
  split; [|repeat split].
  intros request Hl Ha Hq.
  destruct (graduate_rule _ (income_of request) _ Ha Hq) as [Hok Hno].
  split.
  - rewrite webhook_says_iff, Hl. exact Hok.
  - intros a Ea Hn. apply webhook_says. rewrite Hl. exact (Hno a Ea Hn).
Qed.

Lemma education_rule_witness :
  loan_eligibility_webhook (education_request "graduate" 18) = say Msg.education_ok.
Proof.
  apply (proj1 (proj1 education_rule (education_request "graduate" 18)
                  eq_refl ltac:(discriminate) ltac:(discriminate))).
  split; [reflexivity | exists 18; split; [reflexivity | lia]].
Defined.

(** C2, as worded, fails for the education request with qualification
    "graduate" and age "abc": both values are non-null, the criteria are not
    met, and the handler raises instead of answering with the ineligible
    message. *)
Lemma education_rule_as_stated_fails :
  ~ Stated.education_claim (turn non_numeric_age_graduate).
Proof.
  intros H.
  destruct (H eq_refl ltac:(discriminate) ltac:(discriminate)) as [_ Hno].
  assert (Hr : loan_eligibility_webhook (turn non_numeric_age_graduate)
               = Raise ValueError) by reflexivity.
  rewrite Hr in Hno. discriminate Hno.
  intros (_ & a & Ea & _). discriminate Ea.
Qed.

Lemma income_rule (age income qualification : value) :
  (income <> VNone ->
   (eligibility_logic (VStr "business") age income qualification = Ok Msg.business_ok
    <-> exists i, Py.int income = Ok i /\ 40000 <= i)
   /\ (forall i, Py.int income = Ok i -> i < 40000 ->
                eligibility_logic (VStr "business") age income qualification
                = Ok Msg.business_no))
  /\ (income = VNone ->
      eligibility_logic (VStr "business") age income qualification
      = Ok Msg.business_ask).
Proof.
  rewrite logic_business. split.
  - intros Hi. rewrite (is_none_false income Hi). simpl.
    destruct (Py.int income) as [i|ei]; simpl.
    + compare_cases.
      * split; [split; [intros _; exists i; auto | reflexivity]|].
        intros i' [= <-] Hlt. lia.
      * split; [split|].
        -- discriminate.
        -- intros (i' & [= <-] & Hle). lia.
        -- reflexivity.
    + split; [split; [discriminate | intros (i' & [=] & _)]|].
      intros i' [=].
  - intros ->. reflexivity.
Qed.

(** C3, as amended.  For a request whose loan type is business the outcome
    depends on the extracted income alone: with a non-null income the
    response is the eligible message exactly when the integer coercion of
    income succeeds with a result of at least 40000, and the ineligible
    message when it succeeds with a smaller result; with a null income the
    response is the business missing-info prompt.  An income of 40000 alone
    is eligible, 39999 is ineligible. *)
Theorem business_rule :
  (forall request : WebhookRequest,
     loan_type_of request = VStr "business" ->
     (income_of request <> VNone ->
      (loan_eligibility_webhook request = say Msg.business_ok
       <-> exists i, Py.int (income_of request) = Ok i /\ 40000 <= i)
      /\ (forall i, Py.int (income_of request) = Ok i -> i < 40000 ->
                   loan_eligibility_webhook request = say Msg.business_no))
     /\ (income_of request = VNone ->
         loan_eligibility_webhook request = say Msg.business_ask))
  /\ (forall r1 r2 : WebhookRequest,
        loan_type_of r1 = VStr "business" ->
        loan_type_of r2 = VStr "business" ->
        income_of r1 = income_of r2 ->
        loan_eligibility_webhook r1 = loan_eligibility_webhook r2)
  /\ loan_eligibility_webhook (business_request 40000) = say Msg.business_ok
  /\ loan_eligibility_webhook (business_request 39999) = say Msg.business_no.
Proof.
  split; [|split; [|split; reflexivity]].
  - intros request Hl.
    destruct (income_rule (age_of request) (income_of request)
                (qualification_of request)) as [Hsome Hnone].
    split.
    + intros Hi. destruct (Hsome Hi) as [Hok Hno]. split.
      * rewrite webhook_says_iff, Hl. exact Hok.
      * intros i Ei Hlt. apply webhook_says. rewrite Hl. exact (Hno i Ei Hlt).
    + intros Hi. apply webhook_says. rewrite Hl. exact (Hnone Hi).
  - intros r1 r2 H1 H2 Hi. rewrite !webhook_bind, H1, H2, !logic_business, Hi.
    reflexivity.
Qed.

Lemma business_rule_witness :
  loan_eligibility_webhook (business_request 45000) = say Msg.business_ok.
Proof.
  apply (proj1 (proj1 (proj1 business_rule (business_request 45000) eq_refl)
                  ltac:(discriminate))).
  exists 45000. split; [reflexivity | lia].
Defined.

(** C3, as worded, fails for the business request with income "abc": the
    income is non-null and below no threshold, and the handler raises instead
    of answering with the ineligible message. *)
Lemma business_rule_as_stated_fails :
  ~ Stated.business_claim (turn non_numeric_income).
Proof.
  intros H.
  destruct (H eq_refl) as [Hsome _].
  destruct (Hsome ltac:(discriminate)) as [_ Hno].
  assert (Hr : loan_eligibility_webhook (turn non_numeric_income) = Raise ValueError)
    by reflexivity.
  rewrite Hr in Hno. discriminate Hno.
  intros (i & Ei & _). discriminate Ei.
Qed.

(** ** Missing and degenerate attributes *)

Lemma logic_missing (p : Spec.product) (age income qualification : value) :
  In VNone (Spec.required p age income qualification) ->
  eligibility_logic (VStr (Spec.name p)) age income qualification
  = Ok (Spec.missing_info p).
Proof.
  destruct p; simpl; intros H; repeat destruct H as [->|H]; try destruct H;
    try reflexivity; destruct age; reflexivity.
Qed.

Lemma empty_string_is_null (params : gmap string value) (k : string)
    (fb : option string) :
  params !! k = Some (VStr "") -> get_parameter params k fb = VNone.
Proof.
  intros H. rewrite get_parameter_spec. unfold Spec.resolved. rewrite H. reflexivity.
Qed.

(** C4. For a request whose loan type is one of the five products, if one of
    the required attributes of the product extracts to null, the response is
    the missing-info prompt of the product and not its ineligible message; so
    the ineligible message is given only when every required attribute is
    non-null.  An attribute whose raw value is the empty string extracts to
    null. *)
Theorem missing_attribute_prompts :
  (forall (request : WebhookRequest) (p : Spec.product),
     loan_type_of request = VStr (Spec.name p) ->
     (In VNone (Spec.required p (age_of request) (income_of request)
                  (qualification_of request)) ->
      loan_eligibility_webhook request = say (Spec.missing_info p)
      /\ loan_eligibility_webhook request <> say (Spec.ineligible p))
     /\ (loan_eligibility_webhook request = say (Spec.ineligible p) ->
         ~ In VNone (Spec.required p (age_of request) (income_of request)
                       (qualification_of request))))
  /\ (forall (params : gmap string value) (k : string) (fb : option string),
        params !! k = Some (VStr "") -> get_parameter params k fb = VNone).
Proof.
  split; [|apply empty_string_is_null].
  intros request p Hl.
  assert (Hm : In VNone (Spec.required p (age_of request) (income_of request)
                           (qualification_of request)) ->
               loan_eligibility_webhook request = say (Spec.missing_info p)).
  { intros H. apply webhook_says. rewrite Hl. apply logic_missing, H. }
  destruct (verdicts_differ p) as (_ & Hd & _).
  split.
  - intros H. split; [exact (Hm H)|].
    rewrite (Hm H). intros Heq. apply Hd, say_inj, Heq.
  - intros Hno H. rewrite (Hm H) in Hno. apply Hd, say_inj, Hno.
Qed.

Lemma missing_attribute_prompts_witness :
  loan_type_of car_request_empty_age = VStr "car"
  /\ age_of car_request_empty_age = VNone
  /\ loan_eligibility_webhook car_request_empty_age = say Msg.car_ask.
Proof.
  split; [reflexivity | split; [reflexivity|]].
  apply (proj1 (proj1 missing_attribute_prompts car_request_empty_age Spec.Car eq_refl)).
  simpl. left. reflexivity.
Defined.

(** C9 fails on the code: the home request with age "abc" and income 50000
    reaches [int("abc")], which raises [ValueError]; no response text is
    produced. *)
Theorem non_numeric_age_raises :
  loan_eligibility_webhook (turn non_numeric_age) = Raise ValueError.
Proof. reflexivity. Qed.

Lemma logic_empty_list (p : Spec.product) (age income qualification : value) :
  ~ In VNone (Spec.required p age income qualification) ->
  In (VList []) (Spec.required p age income qualification) ->
  eligibility_logic (VStr (Spec.name p)) age income qualification
    = Ok (Spec.ineligible p)
  \/ exists e, eligibility_logic (VStr (Spec.name p)) age income qualification
               = Raise e.
Proof.
  intros Hn Hin.
  assert (Hp : forall v, In v (Spec.required p age income qualification) ->
                         Py.is_none v = false).
  { intros v Hv. apply is_none_false. intros ->. exact (Hn Hv). }
  assert (Hnum : forall amin imin, Spec.thresholds p = Some (amin, imin) ->
                 eligibility_logic (VStr (Spec.name p)) age income qualification
                   = Ok (Spec.ineligible p)
                 \/ exists e, eligibility_logic (VStr (Spec.name p)) age income
                                qualification = Raise e).
  { intros amin imin Ht. rewrite (logic_thresholds p amin imin) by exact Ht.
    assert (Hr : Spec.required p age income qualification = [age; income])
      by (destruct p; (reflexivity || discriminate Ht)).
    rewrite Hr in Hin, Hp.
    rewrite (Hp age), (Hp income) by (simpl; auto). simpl.
    destruct Hin as [-> | [-> | []]]; simpl.
    - right. eexists. reflexivity.
    - destruct (Py.int age) as [a|e]; simpl; [|right; eexists; reflexivity].
      compare_cases; simpl; [right; eexists; reflexivity | left; reflexivity]. }
  destruct p; try (eapply Hnum; reflexivity); clear Hnum; simpl in Hin, Hp.
  - change (Spec.name Spec.Education) with "education". rewrite logic_education.
    rewrite (Hp age), (Hp qualification) by auto. simpl.
    destruct Hin as [-> | [-> | []]]; simpl.
    + destruct (Py.str_in _ _); simpl; [right; eexists; reflexivity | left; reflexivity].
    + left. reflexivity.
  - change (Spec.name Spec.Business) with "business". rewrite logic_business.
    rewrite (Hp income) by auto. simpl.
    destruct Hin as [-> | []]. right. eexists. reflexivity.
Qed.

(** C10. When the looked-up key resolves to an empty list, [get_parameter]
    returns the empty list and not null; a required attribute given as an
    empty list therefore counts as present: with the other required
    attributes non-null the handler enters the comparison (it answers with the
    ineligible message or raises) and does not give the missing-info
    prompt. *)
Theorem empty_list_counts_as_present :
  (forall (params : gmap string value) (k : string) (fb : option string),
     Spec.resolved params k fb = VList [] -> get_parameter params k fb = VList [])
  /\ (forall (request : WebhookRequest) (p : Spec.product),
        loan_type_of request = VStr (Spec.name p) ->
        ~ In VNone (Spec.required p (age_of request) (income_of request)
                      (qualification_of request)) ->
        In (VList []) (Spec.required p (age_of request) (income_of request)
                         (qualification_of request)) ->
        loan_eligibility_webhook request <> say (Spec.missing_info p)
        /\ (loan_eligibility_webhook request = say (Spec.ineligible p)
            \/ exists e, loan_eligibility_webhook request = Raise e)).
Proof.
  split.
  - intros params k fb H. rewrite get_parameter_spec, H. reflexivity.
  - intros request p Hl Hn Hin.
    destruct (verdicts_differ p) as (_ & Hd & _).
    destruct (logic_empty_list p _ _ _ Hn Hin) as [H | [e H]].
    + rewrite (webhook_says request _ ltac:(rewrite Hl; exact H)).
      split; [|left; reflexivity].
      intros Heq. apply Hd. symmetry. apply say_inj, Heq.
    + rewrite (webhook_raises request e ltac:(rewrite Hl; exact H)).
      split; [discriminate | right; exists e; reflexivity].
Qed.

Lemma empty_list_counts_as_present_witness :
  age_of (turn empty_list_age) = VList []
  /\ loan_eligibility_webhook (turn empty_list_age) <> say Msg.home_ask.
Proof.
  split; [reflexivity|].
  apply (proj2 empty_list_counts_as_present (turn empty_list_age) Spec.Home eq_refl).
  - simpl. intros [H | [H | []]]; discriminate H.
  - simpl. left. reflexivity.
Defined.

Example empty_list_age_raises :
  loan_eligibility_webhook (turn empty_list_age) = Raise TypeError.
Proof. reflexivity. Qed.

(** ** More on the merge *)

Lemma overlays_without_match (contexts : list Context) (m : gmap string value) :
  Forall (fun c => context_matches c = false) contexts ->
  foldl overlay m contexts = m.
Proof.
  intros H. revert m. induction H as [|c cs Hc _ IH]; intros m; simpl; [reflexivity|].
  rewrite IH. unfold overlay. rewrite Hc. reflexivity.
Qed.

Lemma last_setting_origin (k : string) (contexts : list Context) (v : value) :
  Spec.last_setting k contexts = Some v ->
  exists c p, In c contexts /\ context_matches c = true
              /\ ctx_parameters c = Some p /\ p !! k = Some v.
Proof.
  induction contexts as [|c cs IH]; simpl; [discriminate|].
  destruct (Spec.last_setting k cs) as [w|].
  - intros [= ->]. destruct (IH eq_refl) as (c' & p & Hin & Hm & Hp & Hk).
    exists c', p. auto.
  - destruct (context_matches c) eqn:Hm; [|discriminate].
    intros Hk. destruct (ctx_parameters c) as [p|] eqn:Hp; simpl in Hk.
    + exists c, p. auto.
    + rewrite lookup_empty in Hk. discriminate.
Qed.

Lemma last_setting_is_Some (k : string) (contexts : list Context) (c : Context)
    (p : gmap string value) :
  In c contexts -> context_matches c = true -> ctx_parameters c = Some p ->
  is_Some (p !! k) ->
  is_Some (Spec.last_setting k contexts).
Proof.
  intros Hin Hm Hp Hk. induction contexts as [|c' cs IH]; simpl; [destruct Hin|].
  destruct (Spec.last_setting k cs) as [w|] eqn:E; [eauto|].
  destruct Hin as [-> | Hin].
  - rewrite Hm, Hp. exact Hk.
  - destruct (IH Hin) as [w Hw]. discriminate Hw.
Qed.

Lemma lookup_merged (qr : QueryResult) (k : string) :
  get_merged_parameters qr !! k
  = match parameters qr !! k with
    | Some v => Some v
    | None => Spec.last_setting k (contexts_of qr)
    end.
Proof.
  rewrite get_merged_parameters_fold, lookup_update, lookup_overlays, lookup_empty.
  destruct (parameters qr !! k); [reflexivity|].
  destruct (Spec.last_setting k (contexts_of qr)); reflexivity.
Qed.

(** X1. Without a matching context (no contexts at all, a null list, names
    without the marker, or empty parameters) the merged mapping is the current
    turn's [parameters]. *)
Theorem merge_without_matching_context (qr : QueryResult) :
  Forall (fun c => context_matches c = false) (contexts_of qr) ->
  get_merged_parameters qr = parameters qr.
Proof.
  intros H. rewrite get_merged_parameters_fold, (overlays_without_match _ _ H).
  apply map_eq. intros k. rewrite lookup_update, lookup_empty.
  destruct (parameters qr !! k); reflexivity.
Qed.

Lemma merge_without_matching_context_witness :
  get_merged_parameters turn_without_memory = {[ "age" := VInt 30 ]}.
Proof.
  apply (merge_without_matching_context turn_without_memory).
  repeat constructor.
Defined.

(** X2. The merge invents nothing: a value found in the merged mapping is the
    current turn's value for that key, or the value that some matching context
    of the request holds for it. *)
Theorem merged_value_origin (qr : QueryResult) (k : string) (v : value) :
  get_merged_parameters qr !! k = Some v ->
  parameters qr !! k = Some v
  \/ exists c p, In c (contexts_of qr) /\ context_matches c = true
                 /\ ctx_parameters c = Some p /\ p !! k = Some v.
Proof.
  rewrite lookup_merged. destruct (parameters qr !! k) as [w|].
  - intros H. left. exact H.
  - intros H. right. apply last_setting_origin, H.
Qed.

Lemma merged_value_origin_witness :
  exists c p, In c (contexts_of turn_after_home) /\ context_matches c = true
              /\ ctx_parameters c = Some p /\ p !! "loan-type" = Some (VStr "home").
Proof.
  destruct (merged_value_origin turn_after_home "loan-type" (VStr "home") eq_refl)
    as [H | H]; [discriminate H | exact H].
Defined.

(** X3. The merge drops nothing: a key is bound in the merged mapping exactly
    when the current turn binds it or some matching context of the request
    does. *)
Theorem merged_keys (qr : QueryResult) (k : string) :
  is_Some (get_merged_parameters qr !! k)
  <-> is_Some (parameters qr !! k)
      \/ exists c p, In c (contexts_of qr) /\ context_matches c = true
                     /\ ctx_parameters c = Some p /\ is_Some (p !! k).
Proof.
  rewrite lookup_merged. split.
  - destruct (parameters qr !! k) as [w|]; [left; eauto|].
    intros [v Hv]. right.
    destruct (last_setting_origin _ _ _ Hv) as (c & p & Hin & Hm & Hp & Hk).
    exists c, p. eauto.
  - intros [[w Hw] | (c & p & Hin & Hm & Hp & Hk)].
    + rewrite Hw. eauto.
    + destruct (parameters qr !! k); [eauto|].
      exact (last_setting_is_Some k _ c p Hin Hm Hp Hk).
Qed.

(** X4. Merging is stable: a request that sends the merged mapping back as its
    current turn, with the same contexts, merges to the same mapping. *)
Theorem merge_stable (qr : QueryResult) :
  get_merged_parameters
    {| parameters := get_merged_parameters qr; intent := intent qr;
       output_contexts := output_contexts qr |}
  = get_merged_parameters qr.
Proof.
  apply map_eq. intros k. rewrite lookup_merged. simpl.
  unfold contexts_of. simpl. fold (contexts_of qr).
  rewrite lookup_merged.
  destruct (parameters qr !! k); [reflexivity|].
  destruct (Spec.last_setting k (contexts_of qr)); reflexivity.
Qed.

(** ** More on the loan type *)

Lemma truthy_not_none (v : value) : Py.truthy v = true -> v <> VNone.
Proof. intros H ->. discriminate H. Qed.

(** X5. The loan type is null exactly when [loan-type] and the six flag keys
    are all falsy in the mapping; a loan type that is not null is truthy, so
    an empty or zero [loan-type] is never returned. *)
Theorem loan_type_undetermined_iff (params : gmap string value) :
  (determine_loan_type params = VNone
   <-> forall k, In k Spec.loan_type_keys -> Py.truthy (Py.get params k) = false)
  /\ (determine_loan_type params = VNone
      \/ Py.truthy (determine_loan_type params) = true).
Proof.
  unfold determine_loan_type. split; [split|].
  - intros H k Hk.
    destruct (Py.truthy (Py.get params "loan-type")) eqn:E0.
    { rewrite H in E0. discriminate E0. }
    destruct (Py.truthy (Py.get params "Home_eligibility")) eqn:E1; [discriminate H|].
    destruct (Py.truthy (Py.get params "Car_eligibility")) eqn:E2; [discriminate H|].
    destruct (Py.truthy (Py.get params "education_eligibility")) eqn:E3;
      [discriminate H|].
    destruct (Py.truthy (Py.get params "edu_eligibility")) eqn:E4; [discriminate H|].
    destruct (Py.truthy (Py.get params "personal_eligibility")) eqn:E5;
      [discriminate H|].
    destruct (Py.truthy (Py.get params "Business_eligibility")) eqn:E6;
      [discriminate H|].
    simpl in Hk. repeat destruct Hk as [<- | Hk]; try assumption. destruct Hk.
  - intros H. rewrite !H by (simpl; tauto). reflexivity.
  - destruct (Py.truthy (Py.get params "loan-type")) eqn:E0; [right; exact E0|].
    repeat match goal with
           | |- context [if ?b then _ else _] => destruct b; [right; reflexivity|]
           end.
    left. reflexivity.
Qed.

(** X6. The loan type is remembered across turns: when the current turn has
    no [loan-type] key and the last matching context that sets [loan-type]
    gives it a truthy value, that value is the loan type, whatever flags the
    current turn carries; and a truthy [loan-type] of the current turn is the
    loan type whatever the contexts hold. *)
Theorem loan_type_across_turns (qr : QueryResult) (v : value) :
  Py.truthy v = true ->
  (parameters qr !! "loan-type" = None /\
   Spec.last_setting "loan-type" (contexts_of qr) = Some v)
  \/ parameters qr !! "loan-type" = Some v ->
  determine_loan_type (get_merged_parameters qr) = v.
Proof.
  intros Hv H.
  assert (Hk : get_merged_parameters qr !! "loan-type" = Some v).
  { rewrite lookup_merged. destruct H as [[-> H] | ->]; [exact H | reflexivity]. }
  unfold determine_loan_type, Py.get. rewrite Hk. simpl. rewrite Hv. reflexivity.
Qed.

Lemma loan_type_across_turns_witness :
  determine_loan_type (get_merged_parameters turn_after_home) = VStr "home".
Proof.
  apply (loan_type_across_turns turn_after_home (VStr "home") eq_refl).
  left. split; reflexivity.
Defined.

(** ** More on value extraction *)

(** X7. An empty string in the current turn hides what the contexts remember:
    the attribute extracts to null whatever the contexts and the fallback key
    hold. *)
Theorem empty_current_value_hides_memory (qr : QueryResult) (k : string)
    (fb : option string) :
  parameters qr !! k = Some (VStr "") ->
  get_parameter (get_merged_parameters qr) k fb = VNone.
Proof.
  intros H. apply empty_string_is_null. rewrite lookup_merged, H. reflexivity.
Qed.

Lemma empty_current_value_hides_memory_witness :
  get_parameter (get_merged_parameters turn_after_home) "income" (Some "number")
  = VNone.
Proof.
  apply (empty_current_value_hides_memory turn_after_home "income" (Some "number")).
  reflexivity.
Defined.

(** X17. An attribute extracts to null exactly when the value found under the
    primary key, or under the fallback key when that is consulted, is null,
    the empty string, a structured object whose [amount] is null, or a list
    whose first element is null. *)
Theorem extracts_to_null_iff (params : gmap string value) (k : string)
    (fb : option string) :
  get_parameter params k fb = VNone
  <-> Spec.resolved params k fb = VNone
      \/ Spec.resolved params k fb = VStr ""
      \/ (exists d, Spec.resolved params k fb = VDict d
                     /\ Py.assoc "amount" d = Some VNone)
      \/ (exists l, Spec.resolved params k fb = VList (VNone :: l)).
Proof.
  rewrite get_parameter_spec.
  destruct (Spec.resolved params k fb) as [| b | n | s | l | d]; simpl.
  - split; auto.
  - split; [discriminate|].
    intros [H | [H | [(d & H & _) | (l & H)]]]; discriminate H.
  - split; [discriminate|].
    intros [H | [H | [(d & H & _) | (l & H)]]]; discriminate H.
  - destruct s as [|c s].
    + split; auto.
    + split; [discriminate|].
      intros [H | [H | [(d & H & _) | (l & H)]]]; discriminate H.
  - destruct l as [|x l].
    + split; [discriminate|].
      intros [H | [H | [(d & H & _) | (l & H)]]]; discriminate H.
    + split.
      * intros ->. right. right. right. exists l. reflexivity.
      * intros [H | [H | [(d & H & _) | (l' & H)]]]; try discriminate H.
        injection H as -> _. reflexivity.
  - destruct (Py.assoc "amount" d) as [a|] eqn:E.
    + split.
      * intros ->. right. right. left. exists d. auto.
      * intros [H | [H | [(d' & H & Hd) | (l & H)]]]; try discriminate H.
        injection H as <-. rewrite E in Hd. injection Hd as ->. reflexivity.
    + split; [discriminate|].
      intros [H | [H | [(d' & H & Hd) | (l & H)]]]; try discriminate H.
      injection H as <-. rewrite E in Hd. discriminate Hd.
Qed.

(** X8. Age and income share the fallback key [number]: when the merged
    mapping has neither an age nor an income, both extract to the same value,
    the unwrapped [number]. *)
Theorem age_income_share_number (request : WebhookRequest) :
  Py.get (params_of request) "age" = VNone ->
  Py.get (params_of request) "income" = VNone ->
  age_of request = Spec.unwrap (Py.get (params_of request) "number")
  /\ income_of request = age_of request.
Proof.
  intros Ha Hi.
  assert (H : forall k, Py.get (params_of request) k = VNone ->
                        get_parameter (params_of request) k (Some "number")
                        = Spec.unwrap (Py.get (params_of request) "number")).
  { intros k Hk. rewrite get_parameter_spec. f_equal.
    unfold Spec.resolved. unfold Py.get in Hk |- *.
    destruct (params_of request !! k) as [w|]; simpl in Hk; [subst w|]; reflexivity. }
  unfold age_of, income_of. rewrite (H "age" Ha), (H "income" Hi). auto.
Qed.

Lemma age_income_share_number_witness :
  age_of number_only_request = VInt 40000
  /\ income_of number_only_request = age_of number_only_request.
Proof.
  apply (age_income_share_number number_only_request); reflexivity.
Defined.

(** X9. A request that gives only a [number] n is decided with n taken as
    both the age and the income: for home, car and personal the response is
    the eligible message when n reaches both minima and the ineligible message
    otherwise, never the missing-info prompt. *)
Theorem single_number_decides (request : WebhookRequest) (p : Spec.product)
    (amin imin n : Z) :
  Spec.thresholds p = Some (amin, imin) ->
  loan_type_of request = VStr (Spec.name p) ->
  Py.get (params_of request) "age" = VNone ->
  Py.get (params_of request) "income" = VNone ->
  Py.get (params_of request) "number" = VInt n ->
  loan_eligibility_webhook request
  = say (if (amin <=? n) && (imin <=? n) then Spec.eligible p else Spec.ineligible p).
Proof.
  intros Ht Hl Ha Hi Hn. apply webhook_says.
  assert (H : forall k, Py.get (params_of request) k = VNone ->
                        get_parameter (params_of request) k (Some "number") = VInt n).
  { intros k Hk. rewrite get_parameter_spec. unfold Spec.resolved.
    unfold Py.get in Hk, Hn.
    destruct (params_of request !! k) as [w|]; simpl in Hk; [subst w|];
      simpl; rewrite Hn; reflexivity. }
  unfold age_of, income_of. rewrite (H "age" Ha), (H "income" Hi), Hl.
  rewrite (logic_thresholds p amin imin) by exact Ht. simpl.
  rewrite !Z.geb_leb. destruct (amin <=? n); simpl; [|reflexivity].
  destruct (imin <=? n); reflexivity.
Qed.

Lemma single_number_decides_witness :
  loan_eligibility_webhook number_only_request = say Msg.home_ok.
Proof.
  apply (single_number_decides number_only_request Spec.Home 21 30000 40000);
    reflexivity.
Defined.

(** ** More on the handler *)

Lemma eq_str_false (v : value) (s : string) :
  v <> VStr s -> Py.eq_str v s = false.
Proof.
  destruct v as [| | | t | |]; try reflexivity. simpl.
  destruct (String.eqb_spec t s) as [-> | _]; [congruence | reflexivity].
Qed.

Lemma eq_str_true (v : value) (s : string) :
  Py.eq_str v s = true -> v = VStr s.
Proof.
  destruct v as [| | | t | |]; try discriminate. simpl.
  destruct (String.eqb_spec t s) as [-> | _]; [reflexivity | discriminate].
Qed.

Lemma int_not_none (v : value) (n : Z) : Py.int v = Ok n -> v <> VNone.
Proof. intros H ->. discriminate H. Qed.

(** X10. A loan type that is none of the five names, compared as exact
    strings ("Home" is not "home"), gets the prompt asking which loan is
    meant; age and income are not coerced, so nothing is raised. *)
Theorem unknown_loan_type_prompt (request : WebhookRequest) :
  (forall p : Spec.product, loan_type_of request <> VStr (Spec.name p)) ->
  loan_eligibility_webhook request = say Msg.undetermined.
Proof.
  intros H. apply webhook_says. unfold eligibility_logic.
  rewrite (eq_str_false _ "home" (H Spec.Home)),
          (eq_str_false _ "car" (H Spec.Car)),
          (eq_str_false _ "personal" (H Spec.Personal)),
          (eq_str_false _ "education" (H Spec.Education)),
          (eq_str_false _ "business" (H Spec.Business)).
  reflexivity.
Qed.

Lemma unknown_loan_type_prompt_witness :
  loan_eligibility_webhook capitalised_request = say Msg.undetermined.
Proof.
  apply (unknown_loan_type_prompt capitalised_request).
  intros p H. vm_compute in H. destruct p; discriminate H.
Defined.

(** X11. In the education branch the age is coerced only after the
    qualification passed: when the text of the qualification lacks
    "graduate", the response is the ineligible message for every non-null
    age, a non-numeric one included. *)
Theorem education_without_graduate (request : WebhookRequest) :
  loan_type_of request = VStr "education" ->
  age_of request <> VNone ->
  qualification_of request <> VNone ->
  Py.str_in "graduate" (Py.lower (Py.str (qualification_of request))) = false ->
  loan_eligibility_webhook request = say Msg.education_no.
Proof.
  intros Hl Ha Hq Hg. apply webhook_says. rewrite Hl, logic_education.
  rewrite (is_none_false _ Ha), (is_none_false _ Hq), Hg. reflexivity.
Qed.

Lemma education_without_graduate_witness :
  Py.int (age_of school_request) = Raise ValueError
  /\ loan_eligibility_webhook school_request = say Msg.education_no.
Proof.
  split; [reflexivity|].
  apply (education_without_graduate school_request);
    (reflexivity || discriminate).
Defined.

(** X12. For home, car and personal the income is coerced only after the age
    passed: an age that coerces below the minimum gives the ineligible message
    for every non-null income, a non-numeric one included. *)
Theorem age_below_minimum (request : WebhookRequest) (p : Spec.product)
    (amin imin a : Z) :
  Spec.thresholds p = Some (amin, imin) ->
  loan_type_of request = VStr (Spec.name p) ->
  income_of request <> VNone ->
  Py.int (age_of request) = Ok a ->
  a < amin ->
  loan_eligibility_webhook request = say (Spec.ineligible p).
Proof.
  intros Ht Hl Hi Ea Hlt. apply webhook_says. rewrite Hl.
  exact (numeric_rule_short_circuit p amin imin a _ _ _ Ht
           (int_not_none _ _ Ea) Hi Ea Hlt).
Qed.

Lemma age_below_minimum_witness :
  Py.int (income_of young_request) = Raise ValueError
  /\ loan_eligibility_webhook young_request = say Msg.home_no.
Proof.
  split; [reflexivity|].
  apply (age_below_minimum young_request Spec.Home 21 30000 18);
    first [reflexivity | discriminate | lia].
Defined.




Lemma logic_outcomes (p : Spec.product) (age income qualification : value)
    (s : string) :
  eligibility_logic (VStr (Spec.name p)) age income qualification = Ok s ->
  s = Spec.eligible p \/ s = Spec.ineligible p \/ s = Spec.missing_info p.
Proof.
  assert (Hnum : forall amin imin, Spec.thresholds p = Some (amin, imin) ->
            eligibility_logic (VStr (Spec.name p)) age income qualification = Ok s ->
            s = Spec.eligible p \/ s = Spec.ineligible p \/ s = Spec.missing_info p).
  { intros amin imin Ht. rewrite (logic_thresholds p amin imin) by exact Ht.
    destruct (negb (Py.is_none age) && negb (Py.is_none income));
      [|intros [= <-]; auto].
    destruct (Py.int age) as [a|ea]; simpl; [|discriminate].
    destruct (a >=? amin); simpl; [|intros [= <-]; auto].
    destruct (Py.int income) as [i|ei]; simpl; [|discriminate].
    destruct (i >=? imin); intros [= <-]; auto. }
  destruct p; try (eapply Hnum; reflexivity); clear Hnum.
  - change (Spec.name Spec.Education) with "education". rewrite logic_education.
    destruct (negb (Py.is_none age) && negb (Py.is_none qualification));
      [|intros [= <-]; auto].
    destruct (Py.str_in _ _); simpl; [|intros [= <-]; auto].
    destruct (Py.int age) as [a|ea]; simpl; [|discriminate].
    destruct (a <=? 30); intros [= <-]; auto.
  - change (Spec.name Spec.Business) with "business". rewrite logic_business.
    destruct (negb (Py.is_none income)); [|intros [= <-]; auto].
    destruct (Py.int income) as [i|ei]; simpl; [|discriminate].
    destruct (i >=? 40000); intros [= <-]; auto.
Qed.

(** X14. For a request whose loan type is one of the five products, a
    response text is one of the three messages of that product (eligible,
    ineligible, missing information): never the prompt asking which loan is
    meant, and never a message of another product. *)
Theorem product_outcomes (request : WebhookRequest) (p : Spec.product) (s : string) :
  loan_type_of request = VStr (Spec.name p) ->
  loan_eligibility_webhook request = say s ->
  s = Spec.eligible p \/ s = Spec.ineligible p \/ s = Spec.missing_info p.
Proof.
  intros Hl Hs. apply webhook_says_iff in Hs. rewrite Hl in Hs.
  exact (logic_outcomes p _ _ _ s Hs).
Qed.

Lemma product_outcomes_witness :
  Msg.home_no = Spec.eligible Spec.Home \/ Msg.home_no = Spec.ineligible Spec.Home
  \/ Msg.home_no = Spec.missing_info Spec.Home.
Proof.
  apply (product_outcomes (home_request 20 30000) Spec.Home Msg.home_no);
    reflexivity.
Defined.

(** X15. Each branch reads its own attributes only.  Two requests for the
    same product among home, car and personal with the same extracted age and
    income get the same outcome, whatever their qualification; two education
    requests with the same extracted age and qualification get the same
    outcome, whatever their income. *)
Theorem unused_attributes_ignored (r1 r2 : WebhookRequest) (p : Spec.product) :
  loan_type_of r1 = VStr (Spec.name p) ->
  loan_type_of r2 = VStr (Spec.name p) ->
  Spec.required p (age_of r1) (income_of r1) (qualification_of r1)
  = Spec.required p (age_of r2) (income_of r2) (qualification_of r2) ->
  loan_eligibility_webhook r1 = loan_eligibility_webhook r2.
Proof.
  intros H1 H2 Hr. rewrite !webhook_bind, H1, H2. f_equal.
  assert (Hnum : forall amin imin, Spec.thresholds p = Some (amin, imin) ->
            eligibility_logic (VStr (Spec.name p)) (age_of r1) (income_of r1)
              (qualification_of r1)
            = eligibility_logic (VStr (Spec.name p)) (age_of r2) (income_of r2)
                (qualification_of r2)).
  { intros amin imin Ht. rewrite !(logic_thresholds p amin imin) by exact Ht.
    assert (Hq : forall a i q, Spec.required p a i q = [a; i])
      by (intros; destruct p; (reflexivity || discriminate Ht)).
    rewrite !Hq in Hr. injection Hr as -> ->. reflexivity. }
  destruct p; try (eapply Hnum; reflexivity); clear Hnum; simpl in Hr.
  - change (Spec.name Spec.Education) with "education". rewrite !logic_education.
    injection Hr as -> ->. reflexivity.
  - change (Spec.name Spec.Business) with "business". rewrite !logic_business.
    injection Hr as ->. reflexivity.
Qed.

Lemma unused_attributes_ignored_witness :
  loan_eligibility_webhook (education_request "Under Graduate" 30)
  = loan_eligibility_webhook
      (turn (<[ "income" := VStr "abc" ]>
               (<[ "loan-type" := VStr "education" ]>
                  (<[ "age" := VInt 30 ]>
                     {[ "qualification" := VStr "Under Graduate" ]})))).
Proof.
  apply (unused_attributes_ignored _ _ Spec.Education); reflexivity.
Defined.

(** X16. Eligibility is monotone in age and income for home, car and
    personal: if a request is answered with the eligible message, so is every
    request for the same product whose age and income coerce to values at
    least as large. *)
Theorem eligibility_monotone (r1 r2 : WebhookRequest) (p : Spec.product)
    (amin imin a1 i1 a2 i2 : Z) :
  Spec.thresholds p = Some (amin, imin) ->
  loan_type_of r1 = VStr (Spec.name p) ->
  loan_type_of r2 = VStr (Spec.name p) ->
  Py.int (age_of r1) = Ok a1 -> Py.int (income_of r1) = Ok i1 ->
  Py.int (age_of r2) = Ok a2 -> Py.int (income_of r2) = Ok i2 ->
  a1 <= a2 -> i1 <= i2 ->
  loan_eligibility_webhook r1 = say (Spec.eligible p) ->
  loan_eligibility_webhook r2 = say (Spec.eligible p).
Proof.
  intros Ht H1 H2 Ea1 Ei1 Ea2 Ei2 Ha Hi Hok.
  apply webhook_says_iff in Hok. rewrite H1 in Hok.
  apply (numeric_rule p amin imin _ _ _ Ht (int_not_none _ _ Ea1)
           (int_not_none _ _ Ei1)) in Hok.
  destruct Hok as (a & i & Ea & Ei & Hla & Hli).
  rewrite Ea1 in Ea. rewrite Ei1 in Ei. injection Ea as <-. injection Ei as <-.
  apply webhook_says_iff. rewrite H2.
  apply (numeric_rule p amin imin _ _ _ Ht (int_not_none _ _ Ea2)
           (int_not_none _ _ Ei2)).
  exists a2, i2. repeat split; (assumption || lia).
Qed.

Lemma eligibility_monotone_witness :
  loan_eligibility_webhook (home_request 40 90000) = say Msg.home_ok.
Proof.
  apply (eligibility_monotone (home_request 21 30000) (home_request 40 90000)
           Spec.Home 21 30000 21 30000 40 90000);
    first [reflexivity | lia].
Defined.
